(** * decompiler/instruction.h : parameters, instructions and their rendering

    A shallow embedding of [struct Parameter], [struct Instruction] and of
    the stream insertion operator of [Instruction], followed by the
    properties the specification states about them and by further
    properties read off the code.

    Conventions of the embedding.
    - [int32], [uint32] and [int16] (from common/scummsys.h) are fixed-width
      machine words; a signed word is read with [word.signed], an unsigned
      one with [word.unsigned].
    - [boost::variant<int32, uint32, std::string>] is a three-constructor
      inductive type; [boost::get<T>] throws [bad_get] on the two other
      alternatives.
    - [std::ostream] is the text written to it so far.  Its formatting
      flags are the defaults of a freshly opened stream (decimal base, no
      field width), which is what [operator<<] of the variant alternatives
      reads.  A C++ exception leaves the stream as it was when thrown.
    - The [boost::format] directives in use are [%08x], [%X], [%d] and
      [%s]: they format the argument through the stream inserter of its
      type with the flags hex, hex+uppercase, dec and none. *)

From Stdlib Require Import ZArith NArith Lia List String Ascii Bool.
From coqutil Require Import Word.Interface Word.Properties Word.Naive.
Import ListNotations.

Local Open Scope string_scope.

(** * Part I: the embedding *)

(** ** Text *)

Module Txt.

(** The line terminator written by ["\n"]. *)
Definition nl : string := String (ascii_of_nat 10) EmptyString.

(** [n] copies of the fill character. *)
Fixpoint replicate (n : nat) (c : ascii) : string :=
  match n with
  | O => EmptyString
  | S n' => String c (replicate n' c)
  end.



End Txt.

(** ** Number formatting, as [std::num_put] does it *)

Module NumPut.

Local Open Scope N_scope.

(** The character of one digit; letters for the digits ten to fifteen,
    capital ones under the [uppercase] flag. *)
Definition digit_char (upper : bool) (d : N) : ascii :=
  if d <? 10 then ascii_of_N (48 + d)
  else ascii_of_N ((if upper then 55 else 87) + d).

(** Digits are produced from the least significant one, each put in front
    of those already there. *)
Fixpoint digits (fuel : nat) (base : N) (upper : bool) (n : N) (acc : string)
  : string :=
  match fuel with
  | O => acc
  | S fuel' =>
      let acc' := String (digit_char upper (n mod base)) acc in
      if n / base =? 0 then acc' else digits fuel' base upper (n / base) acc'
  end.

Definition numeral (base : N) (upper : bool) (n : N) : string :=
  digits (S (N.to_nat (N.log2 n))) base upper n "".

Definition dec (n : N) : string := numeral 10 false n.
Definition hex (upper : bool) (n : N) : string := numeral 16 upper n.

(** A signed value in base ten: a minus sign, then the magnitude. *)
Definition dec_signed (z : Z) : string :=
  if (z <? 0)%Z then "-" ++ dec (Z.abs_N z) else dec (Z.abs_N z).

(** Field width [w] with fill character [c]; the text is never cut. *)
Definition setw_fill (w : nat) (c : ascii) (s : string) : string :=
  Txt.replicate (w - String.length s) c ++ s.

(** Reading a numeral back: the value of one digit character, capital
    letters only or small letters only. *)
Definition digit_val (upper : bool) (c : ascii) : option N :=
  let k := N_of_ascii c in
  if (48 <=? k) && (k <=? 57) then Some (k - 48)
  else if upper then
    if (65 <=? k) && (k <=? 70) then Some (k - 55) else None
  else
    if (97 <=? k) && (k <=? 102) then Some (k - 87) else None.

Fixpoint value_from (base : N) (upper : bool) (s : string) (acc : N)
  : option N :=
  match s with
  | EmptyString => Some acc
  | String c s' =>
      match digit_val upper c with
      | Some d => if d <? base then value_from base upper s' (acc * base + d)
                  else None
      | None => None
      end
  end.

Definition value (base : N) (upper : bool) (s : string) : option N :=
  value_from base upper s 0.

End NumPut.

(** ** Machine integers of common/scummsys.h *)

Definition int32 : Type := @word.rep 32 Naive.word32.
Definition uint32 : Type := @word.rep 32 Naive.word32.
Definition int16 : Type := @word.rep 16 Naive.word16.

(** ** The enumerations *)

Inductive InstType : Type :=
  | kBinaryOp | kCall | kCondJump | kCondJumpRel | kDup | kJump | kJumpRel
  | kLoad | kReturn | kSpecial | kStack | kStore | kUnaryOp.

Inductive ParamType : Type :=
  | kSByte | kByte | kShort | kUShort | kInt | kUInt | kString.

(** [==] on [InstType]. *)
Definition InstType_eqb (a b : InstType) : bool :=
  match a, b with
  | kBinaryOp, kBinaryOp | kCall, kCall | kCondJump, kCondJump
  | kCondJumpRel, kCondJumpRel | kDup, kDup | kJump, kJump
  | kJumpRel, kJumpRel | kLoad, kLoad | kReturn, kReturn
  | kSpecial, kSpecial | kStack, kStack | kStore, kStore
  | kUnaryOp, kUnaryOp => true
  | _, _ => false
  end.

(** ** Exceptions and the output stream *)

Inductive exn : Type := bad_get.

Inductive thrown (A : Type) : Type :=
  | Ret (a : A)
  | Throw (e : exn).
Arguments Ret {A} a.
Arguments Throw {A} e.

Definition returned {A} (r : thrown A) : bool :=
  match r with Ret _ => true | Throw _ => false end.

(** A computation on a stream: it returns or throws, and in both cases
    leaves the stream with what was written up to then. *)
Definition ostream : Type := string.
Definition io (A : Type) : Type := ostream -> thrown A * ostream.

Definition ret {A} (a : A) : io A := fun os => (Ret a, os).

Definition bind {A B} (m : io A) (k : A -> io B) : io B :=
  fun os =>
    match m os with
    | (Ret a, os') => k a os'
    | (Throw e, os') => (Throw e, os')
    end.

Definition lift {A} (r : thrown A) : io A := fun os => (r, os).

(** [output << s] for a piece of text. *)
Definition put (s : string) : io unit := fun os => (Ret tt, os ++ s).

Declare Scope io_scope.
Delimit Scope io_scope with io.
Notation "x <- m ;; k" := (bind m (fun x => k))
  (at level 61, m at next level, right associativity) : io_scope.
Notation "m ;; k" := (bind m (fun _ => k))
  (at level 61, right associativity) : io_scope.
Local Open Scope io_scope.

(** ** boost::variant<int32, uint32, std::string> *)

Inductive variant : Type :=
  | VInt32 (v : int32)
  | VUInt32 (v : uint32)
  | VString (s : string).

Definition get_int32 (x : variant) : thrown int32 :=
  match x with VInt32 v => Ret v | _ => Throw bad_get end.

Definition get_uint32 (x : variant) : thrown uint32 :=
  match x with VUInt32 v => Ret v | _ => Throw bad_get end.

Definition get_string (x : variant) : thrown string :=
  match x with VString s => Ret s | _ => Throw bad_get end.

(** [output << x]: the stored alternative goes through its own inserter,
    numbers in base ten. *)
Definition put_variant (x : variant) : io unit :=
  match x with
  | VInt32 v => put (NumPut.dec_signed (word.signed v))
  | VUInt32 v => put (NumPut.dec (Z.to_N (word.unsigned v)))
  | VString s => put s
  end.

(** ** struct Parameter *)

Module Param.

Record Parameter_ : Type := mkParameter {
  _type : ParamType;
  _value : variant
}.

Definition getSigned (p : Parameter_) : thrown int32 := get_int32 (_value p).
Definition getUnsigned (p : Parameter_) : thrown uint32 := get_uint32 (_value p).
Definition getString (p : Parameter_) : thrown string := get_string (_value p).

End Param.

(** ** The boost::format strings of the rendering *)

Module Fmt.

(** ["%08x: %s"]: hexadecimal in small letters, width 8, fill ['0'].  *)
Definition addr_name (a : uint32) (name : string) : string :=
  NumPut.setw_fill 8 "0"%char (NumPut.hex false (Z.to_N (word.unsigned a)))
  ++ ": " ++ name.

(** [" 0x%X"] of an [int32]: under the hex flag a signed integer is
    written as the unsigned integer with the same bits. *)
Definition hex_signed (v : int32) : string :=
  " 0x" ++ NumPut.hex true (Z.to_N (word.unsigned v)).

(** [" 0x%X"] of a [uint32]. *)
Definition hex_unsigned (v : uint32) : string :=
  " 0x" ++ NumPut.hex true (Z.to_N (word.unsigned v)).

(** [" (%d)"] of the [int16] stack change. *)
Definition stack_change (d : int16) : string :=
  " (" ++ NumPut.dec_signed (word.signed d) ++ ")".

End Fmt.

(** ** struct Instruction *)

Module Inst.

Record Instruction : Type := mkInstruction {
  _opcode : uint32;
  _address : uint32;
  _stackChange : int16;
  _name : string;
  _type : InstType;
  _params : list Param.Parameter_;
  _codeGenData : string
}.

(** The test of line 122. *)
Definition is_jump_or_call (t : InstType) : bool :=
  InstType_eqb t kCondJump || InstType_eqb t kCondJumpRel
  || InstType_eqb t kJump || InstType_eqb t kJumpRel || InstType_eqb t kCall.

(** The body of the loop over the parameters; [pos] is the distance of
    the iterator [param] from [inst._params.begin()]. *)
Definition put_param (inst : Instruction) (pos : nat) (param : Param.Parameter_)
  : io unit :=
  (if negb (Nat.eqb pos 0) then put "," else ret tt) ;;
  if is_jump_or_call (_type inst) then
    match Param._type param with
    | kSByte | kShort | kInt =>
        v <- lift (Param.getSigned param) ;; put (Fmt.hex_signed v)
    | kByte | kUShort | kUInt =>
        v <- lift (Param.getUnsigned param) ;; put (Fmt.hex_unsigned v)
    | _ =>
        put " " ;; put_variant (Param._value param)
    end
  else
    put " " ;; put_variant (Param._value param).

(** The loop, from the iterator at distance [pos] to [end()]; [rest] are
    the parameters not yet visited. *)
Fixpoint for_params (inst : Instruction) (pos : nat) (rest : list Param.Parameter_)
  : io unit :=
  match rest with
  | [] => ret tt
  | param :: rest' =>
      put_param inst pos param ;; for_params inst (S pos) rest'
  end.

(** [operator<<(std::ostream &output, const Instruction &inst)]. *)
Definition operator_out (inst : Instruction) : io unit :=
  put (Fmt.addr_name (_address inst) (_name inst)) ;;
  for_params inst 0 (_params inst) ;;
  put (Fmt.stack_change (_stackChange inst)) ;;
  put Txt.nl.

End Inst.

(** ** Instruction streams and their iterators

    [InstIterator] and [ConstInstIterator] are the iterators of
    [std::vector<Instruction>]: positions in the vector, from [begin()]
    (the first element) to [end()] (one past the last). *)

Module Stream.

Definition InstIterator : Type := nat.
Definition ConstInstIterator : Type := nat.

Definition begin_ (v : list Inst.Instruction) : InstIterator := 0%nat.
Definition end_ (v : list Inst.Instruction) : InstIterator := List.length v.

(** [*it]; nothing to read at [end()] or beyond. *)
Definition deref (v : list Inst.Instruction) (it : InstIterator)
  : option Inst.Instruction := nth_error v it.

Definition incr (it : InstIterator) : InstIterator := S it.
Definition decr (it : InstIterator) : InstIterator := Nat.pred it.

(** [for (; it != v.end(); ++it)] reading [*it] at each step: the
    elements visited, in the order of the visits. *)
Fixpoint walk_forward (fuel : nat) (v : list Inst.Instruction)
  (it : InstIterator) : option (list Inst.Instruction) :=
  if Nat.eqb it (end_ v) then Some []
  else
    match fuel with
    | O => None
    | S fuel' =>
        match deref v it with
        | Some x => option_map (cons x) (walk_forward fuel' v (incr it))
        | None => None
        end
    end.

(** [while (it != v.begin())] with [--it] and then a read of [*it] at
    each step. *)
Fixpoint walk_backward (fuel : nat) (v : list Inst.Instruction)
  (it : InstIterator) : option (list Inst.Instruction) :=
  if Nat.eqb it (begin_ v) then Some []
  else
    match fuel with
    | O => None
    | S fuel' =>
        match deref v (decr it) with
        | Some x => option_map (cons x) (walk_backward fuel' v (decr it))
        | None => None
        end
    end.

(** A whole traversal takes one step per element. *)
Definition forward (v : list Inst.Instruction) : option (list Inst.Instruction) :=
  walk_forward (List.length v) v (begin_ v).

Definition backward (v : list Inst.Instruction) : option (list Inst.Instruction) :=
  walk_backward (List.length v) v (end_ v).

End Stream.

(** ** Type coherence of parameters *)

(** The three alternatives of the variant. *)
Inductive alternative : Type := AInt32 | AUInt32 | AString.

Definition alternative_eqb (a b : alternative) : bool :=
  match a, b with
  | AInt32, AInt32 | AUInt32, AUInt32 | AString, AString => true
  | _, _ => false
  end.

(** The alternative a variant stores ([which()]). *)
Definition stored (x : variant) : alternative :=
  match x with
  | VInt32 _ => AInt32
  | VUInt32 _ => AUInt32
  | VString _ => AString
  end.

Definition signed_kind (t : ParamType) : bool :=
  match t with kSByte | kShort | kInt => true | _ => false end.

Definition unsigned_kind (t : ParamType) : bool :=
  match t with kByte | kUShort | kUInt => true | _ => false end.

Definition text_kind (t : ParamType) : bool :=
  match t with kString => true | _ => false end.

(** The alternative a declared type stands for: the one read for it by
    the [switch] of the rendering. *)
Definition implied (t : ParamType) : alternative :=
  if signed_kind t then AInt32
  else if unsigned_kind t then AUInt32
  else AString.

(** Declared type and stored alternative agree. *)
Definition coherent (p : Param.Parameter_) : Prop :=
  stored (Param._value p) = implied (Param._type p).

Definition coherent_inst (inst : Inst.Instruction) : Prop :=
  Forall coherent (Inst._params inst).

(** The declared type is numeric and the variant stores another
    alternative than the one read for that type. *)
Definition misread (p : Param.Parameter_) : bool :=
  (signed_kind (Param._type p) || unsigned_kind (Param._type p))
  && negb (alternative_eqb (stored (Param._value p)) (implied (Param._type p))).

(** ** The text of one operand, by instruction category *)

(** The default textual form of a value. *)
Definition default_text (x : variant) : string :=
  match x with
  | VInt32 v => NumPut.dec_signed (word.signed v)
  | VUInt32 v => NumPut.dec (Z.to_N (word.unsigned v))
  | VString s => s
  end.

(** ["0x"] and capital hexadecimal digits for the numbers of a jump or a
    call, the default form for everything else.  The hexadecimal digits of
    a signed number are those of its 32-bit two's complement pattern. *)
Definition operand_text (category : InstType) (p : Param.Parameter_) : string :=
  if Inst.is_jump_or_call category then
    match Param._type p, Param._value p with
    | (kSByte | kShort | kInt), VInt32 v =>
        "0x" ++ NumPut.hex true (Z.to_N (word.signed v mod 2 ^ 32))
    | (kByte | kUShort | kUInt), VUInt32 v =>
        "0x" ++ NumPut.hex true (Z.to_N (word.unsigned v))
    | _, x => default_text x
    end
  else default_text (Param._value p).

(** All operands: a comma before all but the first, a space before each. *)
Fixpoint operands_text (category : InstType) (first : bool)
  (ps : list Param.Parameter_) : string :=
  match ps with
  | [] => ""
  | p :: ps' =>
      (if first then "" else ",") ++ " " ++ operand_text category p
      ++ operands_text category false ps'
  end.

(** ** Sample data *)

Module Sample.

Definition i32 (z : Z) : int32 := word.of_Z z.
Definition u32 (z : Z) : uint32 := word.of_Z z.
Definition i16 (z : Z) : int16 := word.of_Z z.

Definition param (t : ParamType) (x : variant) : Param.Parameter_ :=
  Param.mkParameter t x.

Definition inst (addr : Z) (delta : Z) (name : string) (t : InstType)
  (ps : list Param.Parameter_) : Inst.Instruction :=
  Inst.mkInstruction (u32 0) (u32 addr) (i16 delta) name t ps "".

(** A jump to [-16], a load of [-16], a call of [4096]. *)
Definition jump_m16 : Inst.Instruction :=
  inst 42 (-2) "jump" kJump [param kInt (VInt32 (i32 (-16)))].
Definition load_m16 : Inst.Instruction :=
  inst 42 3 "push" kLoad [param kInt (VInt32 (i32 (-16)))].
Definition call_4096 : Inst.Instruction :=
  inst 42 0 "call" kCall [param kUInt (VUInt32 (u32 4096))].

(** No operand at all. *)
Definition ret_plain : Inst.Instruction := inst 42 (-2) "ret" kReturn [].

(** Declared an unsigned byte, stored as a signed integer. *)
Definition byte_as_signed : Param.Parameter_ := param kByte (VInt32 (i32 5)).

(** The incoherent parameter in a load, and in a jump after a coherent
    first operand. *)
Definition load_incoherent : Inst.Instruction :=
  inst 16 1 "push" kLoad [byte_as_signed].

(** Three instructions in a row. *)
Definition stream3 : list Inst.Instruction := [load_m16; call_4096; ret_plain].

End Sample.

(** ** Reading a rendering back *)

Module Scan.

(** How often the character [c] occurs in [s]. *)
Fixpoint count (c : ascii) (s : string) : nat :=
  match s with
  | EmptyString => 0
  | String x s' => (if Ascii.eqb x c then 1 else 0) + count c s'
  end.

(** The text alternative, when it is the one stored, holds no [c]. *)
Definition free_of (c : ascii) (x : variant) : bool :=
  match x with
  | VString s => Nat.eqb (count c s) 0
  | _ => true
  end.

(** The character of the line terminator. *)
Definition newline : ascii := ascii_of_nat 10.


End Scan.

(** All operands in their default form, whatever their declared types:
    a comma before all but the first, a space before each. *)
Fixpoint default_operands (first : bool) (ps : list Param.Parameter_) : string :=
  match ps with
  | [] => ""
  | p :: ps' =>
      (if first then "" else ",") ++ " " ++ default_text (Param._value p)
      ++ default_operands false ps'
  end.

(** Two parameters with the same stored value whose declared types are
    of the same kind (both signed, both unsigned, or both text). *)
Definition same_kind (p p' : Param.Parameter_) : Prop :=
  Param._value p = Param._value p'
  /\ implied (Param._type p) = implied (Param._type p').

(** A signed parameter and an unsigned one that both store the 32 bits
    of [w]. *)
Definition same_bits (w : @word.rep 32 Naive.word32) (p p' : Param.Parameter_)
  : Prop :=
  Param._value p = VInt32 w /\ signed_kind (Param._type p) = true
  /\ Param._value p' = VUInt32 w /\ unsigned_kind (Param._type p') = true.

(** ** More sample data *)

Module Sample2.

(** The plain return of [Sample], with another opcode and a hint for the
    code generator. *)
Definition ret_hinted : Inst.Instruction :=
  Inst.mkInstruction (Sample.u32 7) (Sample.u32 42) (Sample.i16 (-2)) "ret"
    kReturn [] "hint".

(** The same 32 bits, declared and stored signed, and unsigned. *)
Definition m16_signed : Param.Parameter_ :=
  Sample.param kInt (VInt32 (Sample.i32 (-16))).
Definition m16_unsigned : Param.Parameter_ :=
  Sample.param kUInt (VUInt32 (Sample.u32 (-16))).

(** [-16] again, declared a signed byte. *)
Definition m16_sbyte : Param.Parameter_ :=
  Sample.param kSByte (VInt32 (Sample.i32 (-16))).

(** A text operand, and a number declared as text. *)
Definition label : Param.Parameter_ := Sample.param kString (VString "loop").
Definition number_as_text : Param.Parameter_ :=
  Sample.param kString (VUInt32 (Sample.u32 4096)).

(** A call with a text, a number declared as text, and a misread operand
    in third place. *)
Definition call_incoherent : Inst.Instruction :=
  Sample.inst 32 0 "call" kCall
    [label; number_as_text; Sample.byte_as_signed; m16_signed].

End Sample2.

(** * Part II: facts about the embedding *)

(** ** Text *)

Module TxtFacts.

Lemma app_nil_r (s : string) : s ++ "" = s.
Proof. induction s as [|c s IH]; simpl; [reflexivity | now rewrite IH]. Qed.

Lemma app_assoc (a b c : string) : a ++ b ++ c = (a ++ b) ++ c.
Proof. induction a as [|x a IH]; simpl; [reflexivity | now rewrite IH]. Qed.

Lemma length_app (a b : string) :
  String.length (a ++ b) = (String.length a + String.length b)%nat.
Proof. induction a as [|x a IH]; simpl; [reflexivity | now rewrite IH]. Qed.

Lemma length_replicate n c : String.length (Txt.replicate n c) = n.
Proof. induction n as [|n IH]; simpl; [reflexivity | now rewrite IH]. Qed.


End TxtFacts.

(** ** Numerals denote the number they were made from *)

Module NumPutFacts.

Import NumPut.
Local Open Scope N_scope.

Lemma digit_val_char upper d : d < 16 -> digit_val upper (digit_char upper d) = Some d.
Proof.
  intros H.
  assert (E : d = 0 \/ d = 1 \/ d = 2 \/ d = 3 \/ d = 4 \/ d = 5 \/ d = 6 \/ d = 7
              \/ d = 8 \/ d = 9 \/ d = 10 \/ d = 11 \/ d = 12 \/ d = 13 \/ d = 14
              \/ d = 15) by lia.
  destruct upper;
    repeat (destruct E as [-> | E]; [reflexivity|]); subst d; reflexivity.
Qed.

Lemma digits_app fuel base upper : forall n acc,
  digits fuel base upper n acc = (digits fuel base upper n "" ++ acc)%string.
Proof.
  induction fuel as [|fuel IH]; intros n acc; simpl; [reflexivity|].
  destruct (n / base =? 0); [reflexivity|].
  rewrite (IH _ (String _ acc)), (IH _ (String _ "")).
  now rewrite <- TxtFacts.app_assoc.
Qed.

Lemma value_from_app base upper : forall s1 s2 acc,
  value_from base upper (s1 ++ s2) acc =
  match value_from base upper s1 acc with
  | Some acc' => value_from base upper s2 acc'
  | None => None
  end.
Proof.
  induction s1 as [|c s1 IH]; intros s2 acc; simpl; [reflexivity|].
  destruct (digit_val upper c) as [d|]; [|reflexivity].
  destruct (d <? base); [apply IH | reflexivity].
Qed.

Section Base.

Variables (base : N) (upper : bool).
Hypothesis base_lo : 2 <= base.
Hypothesis base_hi : base <= 16.

Lemma value_from_digit acc d :
  d < base ->
  value_from base upper (String (digit_char upper d) "") acc = Some (acc * base + d).
Proof.
  intros Hd. simpl. rewrite digit_val_char by lia.
  now apply N.ltb_lt in Hd as ->.
Qed.

Lemma value_digits : forall fuel n,
  n < 2 ^ N.of_nat fuel ->
  value_from base upper (digits fuel base upper n "") 0 = Some n.
Proof.
  induction fuel as [|fuel IH]; intros n Hn.
  - simpl in *. f_equal. lia.
  - cbn [digits]. cbv zeta.
    assert (Hm : n mod base < base) by (apply N.mod_lt; lia).
    destruct (N.eqb_spec (n / base) 0) as [Hq | Hq].
    + rewrite value_from_digit by exact Hm. f_equal.
      rewrite (N.div_mod n base) at 2 by lia. rewrite Hq. lia.
    + rewrite digits_app, value_from_app, IH.
      * rewrite value_from_digit by exact Hm. f_equal.
        rewrite (N.div_mod n base) at 3 by lia. lia.
      * rewrite Nat2N.inj_succ, N.pow_succ_r' in Hn.
        apply N.Div0.div_lt_upper_bound.
        apply N.lt_le_trans with (1 := Hn).
        apply N.mul_le_mono_r. exact base_lo.
Qed.

Lemma value_numeral n : value base upper (numeral base upper n) = Some n.
Proof.
  unfold value, numeral. apply value_digits.
  rewrite Nat2N.inj_succ, N2Nat.id.
  destruct n as [|p]; [reflexivity|].
  apply N.log2_spec. reflexivity.
Qed.

Lemma length_digits : forall fuel n k,
  n < base ^ N.of_nat (S k) ->
  (String.length (digits fuel base upper n "") <= S k)%nat.
Proof.
  induction fuel as [|fuel IH]; intros n k Hn; [simpl; lia|].
  cbn [digits]. cbv zeta.
  destruct (N.eqb_spec (n / base) 0) as [Hq | Hq]; [simpl; lia|].
  rewrite digits_app, TxtFacts.length_app. simpl String.length.
  rewrite Nat2N.inj_succ, N.pow_succ_r' in Hn.
  destruct k as [|k].
  - exfalso. apply Hq. apply N.div_small. simpl in Hn. lia.
  - specialize (IH (n / base) k).
    assert (n / base < base ^ N.of_nat (S k)).
    { apply N.Div0.div_lt_upper_bound. exact Hn. }
    specialize (IH H). lia.
Qed.

Lemma value_from_zeros k : value_from base upper (Txt.replicate k "0"%char) 0 = Some 0.
Proof.
  induction k as [|k IH]; simpl; [reflexivity|].
  destruct (N.ltb_spec 0 base); [exact IH | lia].
Qed.

Lemma value_setw_fill w s :
  value base upper (setw_fill w "0"%char s) = value base upper s.
Proof.
  unfold value, setw_fill. now rewrite value_from_app, value_from_zeros.
Qed.

End Base.

Lemma length_setw_fill w c s :
  (String.length s <= w)%nat -> String.length (setw_fill w c s) = w.
Proof.
  intros H. unfold setw_fill.
  rewrite TxtFacts.length_app, TxtFacts.length_replicate. lia.
Qed.

End NumPutFacts.

(** ** Machine words *)

Module WordFacts.

Local Open Scope Z_scope.

Lemma unsigned32_lt (a : uint32) : (Z.to_N (word.unsigned a) < 16 ^ N.of_nat 8)%N.
Proof.
  pose proof (word.unsigned_range a) as H.
  change (16 ^ N.of_nat 8)%N with (Z.to_N (2 ^ 32)). lia.
Qed.

(** The bits of a signed word, read as an unsigned number. *)
Lemma signed_mod (v : int32) : word.signed v mod 2 ^ 32 = word.unsigned v.
Proof.
  rewrite word.signed_eq_swrap_unsigned. unfold word.swrap.
  pose proof (word.unsigned_range v) as H.
  rewrite Zminus_mod_idemp_l.
  replace (word.unsigned v + 2 ^ (32 - 1) - 2 ^ (32 - 1)) with (word.unsigned v) by lia.
  apply Z.mod_small. exact H.
Qed.

End WordFacts.

(** ** The rendering, step by step *)

Module RenderFacts.

Import Inst.

Ltac run := cbv [bind put ret lift Param.getSigned Param.getUnsigned
                 get_int32 get_uint32 put_variant Param._type Param._value].

Ltac assoc := rewrite <- ?TxtFacts.app_assoc; cbn [append].



(** One turn of the loop throws exactly on a misread parameter of a jump
    or call, and otherwise returns; either way it only adds text. *)
Lemma put_param_shape inst pos p :
  exists txt, forall os,
    put_param inst pos p os =
    (if is_jump_or_call (_type inst) && misread p then Throw bad_get else Ret tt,
     os ++ txt).
Proof.
  unfold put_param, misread.
  destruct (is_jump_or_call (_type inst)), (Nat.eqb pos 0),
    p as [[] []]; eexists; intros os; run; cbn [negb]; cbv beta iota;
    cbn [andb orb negb signed_kind unsigned_kind implied stored alternative_eqb];
    assoc;
    first [reflexivity | f_equal; symmetry; apply TxtFacts.app_nil_r].
Qed.

Lemma for_params_shape inst : forall ps pos,
  exists body, forall os,
    for_params inst pos ps os =
    (if is_jump_or_call (_type inst) && existsb misread ps
     then Throw bad_get else Ret tt,
     os ++ body).
Proof.
  induction ps as [|p ps IH]; intros pos.
  - exists "". intros os. simpl. rewrite andb_false_r, TxtFacts.app_nil_r.
    reflexivity.
  - destruct (put_param_shape inst pos p) as [t1 H1].
    destruct (IH (S pos)) as [t2 H2].
    destruct (is_jump_or_call (_type inst) && misread p) eqn:E.
    + exists t1. intros os. cbn [for_params]. unfold bind. rewrite H1.
      apply andb_true_iff in E as [E1 E2]. cbn [existsb].
      now rewrite E1, E2.
    + exists (t1 ++ t2). intros os. cbn [for_params]. unfold bind.
      rewrite H1, H2, TxtFacts.app_assoc. f_equal.
      cbn [existsb]. apply andb_false_iff in E as [-> | ->];
        [reflexivity | now rewrite orb_false_l].
Qed.

(** The whole rendering. *)
Lemma operator_out_shape inst :
  exists body, forall os,
    operator_out inst os =
    if is_jump_or_call (_type inst) && existsb misread (_params inst)
    then (Throw bad_get,
          os ++ Fmt.addr_name (_address inst) (_name inst) ++ body)
    else (Ret tt,
          os ++ Fmt.addr_name (_address inst) (_name inst) ++ body
             ++ Fmt.stack_change (_stackChange inst) ++ Txt.nl).
Proof.
  destruct (for_params_shape inst (_params inst) 0) as [body H].
  exists body. intros os. unfold operator_out, bind.
  cbv [put] in *. rewrite H.
  destruct (is_jump_or_call (_type inst) && existsb misread (_params inst));
    rewrite <- ?TxtFacts.app_assoc; reflexivity.
Qed.

(** With coherent parameters every turn returns, and writes the text of
    its operand. *)
Lemma put_param_coherent inst pos p os :
  coherent p ->
  put_param inst pos p os =
  (Ret tt, os ++ operands_text (_type inst) (Nat.eqb pos 0) [p]).
Proof.
  unfold put_param, coherent, operand_text, operands_text, operand_text.
  destruct (is_jump_or_call (_type inst)), (Nat.eqb pos 0),
    p as [[] []]; intros H; try discriminate H; run; cbn [negb]; cbv beta iota;
    cbv [default_text Fmt.hex_signed Fmt.hex_unsigned];
    rewrite ?WordFacts.signed_mod, ?TxtFacts.app_nil_r;
    assoc; reflexivity.
Qed.

Lemma operands_text_cons category first p ps :
  operands_text category first (p :: ps) =
  operands_text category first [p] ++ operands_text category false ps.
Proof.
  cbn [operands_text]. rewrite TxtFacts.app_nil_r.
  now rewrite <- !TxtFacts.app_assoc.
Qed.

Lemma for_params_coherent inst : forall ps pos os,
  Forall coherent ps ->
  for_params inst pos ps os =
  (Ret tt, os ++ operands_text (_type inst) (Nat.eqb pos 0) ps).
Proof.
  induction ps as [|p ps IH]; intros pos os H.
  - simpl. now rewrite TxtFacts.app_nil_r.
  - inversion H as [|? ? Hp Hps]; subst.
    cbn [for_params]. unfold bind.
    rewrite put_param_coherent by exact Hp.
    rewrite IH by exact Hps.
    rewrite (operands_text_cons _ _ p ps), TxtFacts.app_assoc. reflexivity.
Qed.

Lemma operator_out_coherent inst os :
  coherent_inst inst ->
  operator_out inst os =
  (Ret tt,
   os ++ Fmt.addr_name (_address inst) (_name inst)
      ++ operands_text (_type inst) true (_params inst)
      ++ Fmt.stack_change (_stackChange inst) ++ Txt.nl).
Proof.
  intros H. unfold operator_out, bind. cbv [put].
  rewrite for_params_coherent by exact H.
  rewrite <- ?TxtFacts.app_assoc. reflexivity.
Qed.

End RenderFacts.

(** ** Walking a stream *)

Module StreamFacts.

Import Stream.






Example backward_stream3 :
  Stream.forward Sample.stream3
  = Some [Sample.load_m16; Sample.call_4096; Sample.ret_plain]
  /\ Stream.backward Sample.stream3
     = Some [Sample.ret_plain; Sample.call_4096; Sample.load_m16].
Proof. split; reflexivity. Qed.

End StreamFacts.

(** * Part III: the properties of the specification *)

Import Inst.

(** C1, as the code has it.  Rendering starts with the address as a field
    of exactly eight hexadecimal digits, padded with zeros, the letters
    among them SMALL ([%08x]), then a colon, a space and the mnemonic name;
    address 0x2A gives the field 0000002a.  This holds for every
    instruction, also when a later parameter makes the rendering throw. *)
Theorem render_starts_with_address :
  (forall (inst : Instruction) (os : ostream),
     exists field rest,
       snd (operator_out inst os) = os ++ field ++ ": " ++ _name inst ++ rest
       /\ String.length field = 8
       /\ NumPut.value 16 false field
          = Some (Z.to_N (word.unsigned (_address inst))))
  /\
  (forall op delta name category params hint (os : ostream),
     exists rest,
       snd (operator_out
              (mkInstruction op (word.of_Z 42) delta name category params hint) os)
       = os ++ "0000002a: " ++ name ++ rest).
Proof.
  split.
  - intros inst os.
    destruct (RenderFacts.operator_out_shape inst) as [body H].
    set (field := NumPut.setw_fill 8 "0"%char
                    (NumPut.hex false (Z.to_N (word.unsigned (_address inst))))).
    assert (Hlen : String.length field = 8).
    { apply NumPutFacts.length_setw_fill.
      apply NumPutFacts.length_digits; [lia | lia |].
      apply WordFacts.unsigned32_lt. }
    assert (Hval : NumPut.value 16 false field
                   = Some (Z.to_N (word.unsigned (_address inst)))).
    { unfold field.
      rewrite NumPutFacts.value_setw_fill by lia.
      apply NumPutFacts.value_numeral; lia. }
    rewrite H. unfold Fmt.addr_name. fold field.
    destruct (is_jump_or_call (_type inst) && existsb misread (_params inst));
      cbn [snd].
    + exists field, body. repeat split; try assumption.
      now rewrite <- !TxtFacts.app_assoc.
    + exists field, (body ++ Fmt.stack_change (_stackChange inst) ++ Txt.nl).
      repeat split; try assumption.
      now rewrite <- !TxtFacts.app_assoc.
  - intros op delta name category params hint os.
    destruct (RenderFacts.operator_out_shape
                (mkInstruction op (word.of_Z 42) delta name category params hint))
      as [body H].
    rewrite H. cbn [_address _name _type _params _stackChange].
    change (Fmt.addr_name (word.of_Z 42) name) with ("0000002a: " ++ name).
    destruct (is_jump_or_call category && existsb misread params); cbn [snd].
    + exists body. now rewrite <- !TxtFacts.app_assoc.
    + exists (body ++ Fmt.stack_change delta ++ Txt.nl).
      now rewrite <- !TxtFacts.app_assoc.
Qed.

(** C1, as the specification words it, fails: the instruction at address
    0x2A is rendered with the field 0000002a, not 0000002A. *)
Lemma address_field_in_small_letters :
  operator_out Sample.jump_m16 ""
  = (Ret tt, "0000002a: jump 0xFFFFFFF0 (-2)" ++ Txt.nl)
  /\ prefix "0000002A" (snd (operator_out Sample.jump_m16 "")) = false
  /\ NumPut.value 16 true
       (substring 0 8 (snd (operator_out Sample.jump_m16 ""))) = None.
Proof. vm_compute. repeat split. Qed.

(** C2, as the code has it.  Each accessor returns the stored value
    exactly when the variant stores the alternative the accessor reads, and
    throws [bad_get] otherwise; the declared type is not consulted.  For a
    type-coherent parameter this is the same as: [getSigned] succeeds
    exactly for the signed kinds, [getUnsigned] exactly for the unsigned
    kinds, [getString] exactly for [kString]. *)
Theorem accessors_follow_stored_alternative (p : Param.Parameter_) :
  (forall v, Param.getSigned p = Ret v <-> Param._value p = VInt32 v)
  /\ (forall v, Param.getUnsigned p = Ret v <-> Param._value p = VUInt32 v)
  /\ (forall s, Param.getString p = Ret s <-> Param._value p = VString s)
  /\ (Param.getSigned p = Throw bad_get <-> stored (Param._value p) <> AInt32)
  /\ (Param.getUnsigned p = Throw bad_get <-> stored (Param._value p) <> AUInt32)
  /\ (Param.getString p = Throw bad_get <-> stored (Param._value p) <> AString)
  /\ (coherent p ->
      returned (Param.getSigned p) = signed_kind (Param._type p)
      /\ returned (Param.getUnsigned p) = unsigned_kind (Param._type p)
      /\ returned (Param.getString p) = text_kind (Param._type p)).
Proof.
  destruct p as [t x]. unfold coherent.
  cbv [Param.getSigned Param.getUnsigned Param.getString
       get_int32 get_uint32 get_string Param._value Param._type].
  destruct x; repeat split; try (intros; congruence);
    try (simpl; congruence).
  all: destruct t; try reflexivity;
    match goal with E : _ = implied _ |- _ => cbv in E; discriminate E end.
Qed.

Lemma accessors_follow_stored_alternative_witness :
  coherent (Sample.param kShort (VInt32 (Sample.i32 (-16))))
  /\ returned (Param.getSigned (Sample.param kShort (VInt32 (Sample.i32 (-16)))))
     = true.
Proof.
  split; [reflexivity|].
  destruct (accessors_follow_stored_alternative
              (Sample.param kShort (VInt32 (Sample.i32 (-16)))))
    as (_ & _ & _ & _ & _ & _ & H).
  destruct (H eq_refl) as (Hs & _ & _). exact Hs.
Defined.

(** C2, as the specification words it, fails: a parameter declared
    [kByte] whose variant stores an [int32] is read by [getSigned] although
    its declared type is unsigned, and [getUnsigned] throws on it. *)
Lemma declared_type_does_not_decide_accessors :
  Param.getSigned Sample.byte_as_signed = Ret (Sample.i32 5)
  /\ signed_kind (Param._type Sample.byte_as_signed) = false
  /\ Param.getUnsigned Sample.byte_as_signed = Throw bad_get
  /\ unsigned_kind (Param._type Sample.byte_as_signed) = true.
Proof. repeat split. Qed.

(** C3, as the code has it.  Rendering throws [bad_get] exactly when the
    category is one of [kCondJump], [kCondJumpRel], [kJump], [kJumpRel],
    [kCall] and some parameter has a numeric declared type while the
    variant stores another alternative than the one read for that type; in
    every other case, coherent or not, rendering returns. *)
Theorem render_throws_iff_misread (inst : Instruction) (os : ostream) :
  fst (operator_out inst os)
  = if is_jump_or_call (_type inst) && existsb misread (_params inst)
    then Throw bad_get else Ret tt.
Proof.
  destruct (RenderFacts.operator_out_shape inst) as [body H]. rewrite H.
  now destruct (is_jump_or_call (_type inst) && existsb misread (_params inst)).
Qed.

(** C3, as the specification words it, fails: a load whose only parameter
    is declared [kByte] and stores an [int32] is rendered without any
    error, the stored number in base ten. *)
Lemma incoherent_load_is_rendered :
  ~ coherent_inst Sample.load_incoherent
  /\ operator_out Sample.load_incoherent ""
     = (Ret tt, "00000010: push 5 (1)" ++ Txt.nl).
Proof.
  split; [|reflexivity].
  intros H. inversion H as [|? ? Hp _]. discriminate Hp.
Qed.

(** C4.  For a type-coherent instruction the rendering returns, and what
    it writes after the address and the name is, for each parameter in
    order, a comma before all but the first, a space, and the text of the
    operand: in a jump or call, ["0x"] and the capital hexadecimal digits
    of the signed value (signed kinds, two's complement on 32 bits) or of
    the unsigned value (unsigned kinds), text as it is; in any other
    category the default form of the value.  A jump to -16 gives
    0xFFFFFFF0, a load of -16 gives -16, a call of 4096 gives 0x1000.  The
    hexadecimal digits read back, capitals only, as the number written. *)
Theorem operands_by_category :
  (forall (inst : Instruction) (os : ostream),
     coherent_inst inst ->
     operator_out inst os
     = (Ret tt,
        os ++ Fmt.addr_name (_address inst) (_name inst)
           ++ operands_text (_type inst) true (_params inst)
           ++ Fmt.stack_change (_stackChange inst) ++ Txt.nl))
  /\ operands_text kJump true [Sample.param kInt (VInt32 (Sample.i32 (-16)))]
     = " 0xFFFFFFF0"
  /\ operands_text kLoad true [Sample.param kInt (VInt32 (Sample.i32 (-16)))]
     = " -16"
  /\ operands_text kCall true [Sample.param kUInt (VUInt32 (Sample.u32 4096))]
     = " 0x1000"
  /\ operator_out Sample.jump_m16 ""
     = (Ret tt, "0000002a: jump 0xFFFFFFF0 (-2)" ++ Txt.nl)
  /\ operator_out Sample.load_m16 ""
     = (Ret tt, "0000002a: push -16 (3)" ++ Txt.nl)
  /\ operator_out Sample.call_4096 ""
     = (Ret tt, "0000002a: call 0x1000 (0)" ++ Txt.nl)
  /\ (forall n : N, NumPut.value 16 true (NumPut.hex true n) = Some n).
Proof.
  split; [|repeat split; try reflexivity].
  - intros inst os H. now apply RenderFacts.operator_out_coherent.
  - intros n. apply NumPutFacts.value_numeral; lia.
Qed.

Lemma operands_by_category_witness :
  coherent_inst Sample.call_4096
  /\ operator_out Sample.call_4096 ">"
     = (Ret tt, ">0000002a: call 0x1000 (0)" ++ Txt.nl).
Proof.
  assert (H : coherent_inst Sample.call_4096)
    by (constructor; [reflexivity | constructor]).
  split; [exact H|].
  rewrite (proj1 operands_by_category Sample.call_4096 ">" H).
  reflexivity.
Defined.

(** C5.  Round trip: for a parameter whose variant stores the alternative
    its declared type stands for, the accessor of that alternative returns
    exactly the stored value, and each of the two other accessors throws
    [bad_get]. *)
Theorem round_trip_coherence (p : Param.Parameter_) :
  coherent p ->
  match implied (Param._type p) with
  | AInt32 =>
      exists v, Param._value p = VInt32 v
        /\ Param.getSigned p = Ret v
        /\ Param.getUnsigned p = Throw bad_get
        /\ Param.getString p = Throw bad_get
  | AUInt32 =>
      exists v, Param._value p = VUInt32 v
        /\ Param.getUnsigned p = Ret v
        /\ Param.getSigned p = Throw bad_get
        /\ Param.getString p = Throw bad_get
  | AString =>
      exists s, Param._value p = VString s
        /\ Param.getString p = Ret s
        /\ Param.getSigned p = Throw bad_get
        /\ Param.getUnsigned p = Throw bad_get
  end.
Proof.
  unfold coherent. destruct p as [t x]. cbn [Param._type Param._value].
  intros H. destruct (implied t), x; try discriminate H;
    eexists; repeat split.
Qed.

Lemma round_trip_coherence_witness :
  coherent (Sample.param kUShort (VUInt32 (Sample.u32 4096)))
  /\ exists v,
       Param.getUnsigned (Sample.param kUShort (VUInt32 (Sample.u32 4096))) = Ret v
       /\ word.unsigned v = 4096%Z.
Proof.
  split; [reflexivity|].
  destruct (round_trip_coherence
              (Sample.param kUShort (VUInt32 (Sample.u32 4096))) eq_refl)
    as (v & Hv & Hget & _).
  exists v. split; [exact Hget|].
  injection Hv as <-. reflexivity.
Defined.








(** C10.  An instruction without parameters is rendered as the address
    field, a colon, a space, the name, one space, the stack change in
    parentheses and the line terminator: the loop writes nothing, no comma
    and no other separator. *)
Theorem render_without_params
  (op addr : uint32) (delta : int16) (name : string) (category : InstType)
  (hint : string) (os : ostream) :
  operator_out (mkInstruction op addr delta name category [] hint) os
  = (Ret tt,
     os ++ NumPut.setw_fill 8 "0"%char
             (NumPut.hex false (Z.to_N (word.unsigned addr)))
        ++ ": " ++ name
        ++ " (" ++ NumPut.dec_signed (word.signed delta) ++ ")" ++ Txt.nl).
Proof.
  unfold operator_out, bind. cbn [for_params _params _address _name _stackChange].
  cbv [put ret]. unfold Fmt.addr_name, Fmt.stack_change.
  rewrite <- !TxtFacts.app_assoc. reflexivity.
Qed.

(** * Part IV: further properties of the code *)

(** ** Texts and characters *)

Module ScanFacts.

Import Scan.

Lemma count_app c (a b : string) : count c (a ++ b) = (count c a + count c b)%nat.
Proof.
  induction a as [|x a IH]; simpl; [reflexivity|]. rewrite IH. lia.
Qed.

Lemma app_inv_head (a b c : string) : a ++ b = a ++ c -> b = c.
Proof.
  induction a as [|x a IH]; simpl; intros H; [exact H|].
  injection H as H. now apply IH.
Qed.

(** A text is cut in one way only at the last occurrence of a character. *)
Lemma split_at_last c : forall a1 a2 b1 b2 : string,
  count c b1 = 0 -> count c b2 = 0 ->
  a1 ++ String c b1 = a2 ++ String c b2 -> a1 = a2 /\ b1 = b2.
Proof.
  induction a1 as [|x a1 IH]; intros [|y a2] b1 b2 H1 H2 E; simpl in E.
  - injection E as E. now split.
  - injection E as Ec E. subst. rewrite count_app in H1. simpl in H1.
    rewrite Ascii.eqb_refl in H1. lia.
  - injection E as Ec E. subst. rewrite count_app in H2. simpl in H2.
    rewrite Ascii.eqb_refl in H2. lia.
  - injection E as Ec E. subst.
    destruct (IH a2 b1 b2 H1 H2 E) as [-> ->]. now split.
Qed.

Lemma substring_skip (a b : string) n :
  substring (String.length a) n (a ++ b) = substring 0 n b.
Proof. induction a as [|x a IH]; simpl; [reflexivity | exact IH]. Qed.

Lemma substring_take (f r : string) : substring 0 (String.length f) (f ++ r) = f.
Proof.
  induction f as [|x f IH]; simpl.
  - now destruct r.
  - now rewrite IH.
Qed.

(** What reads back as a number holds digit characters only. *)
Lemma value_from_count base upper c : forall s acc n,
  NumPut.digit_val upper c = None ->
  NumPut.value_from base upper s acc = Some n -> count c s = 0.
Proof.
  induction s as [|x s IH]; intros acc n Hc Hv; simpl in *; [reflexivity|].
  destruct (NumPut.digit_val upper x) as [d|] eqn:Ex; [|discriminate].
  destruct (d <? base)%N; [|discriminate].
  destruct (Ascii.eqb_spec x c) as [-> | _]; [congruence|].
  simpl. now apply (IH _ _ Hc Hv).
Qed.

Lemma count_numeral base upper c n :
  (2 <= base)%N -> (base <= 16)%N ->
  NumPut.digit_val upper c = None -> count c (NumPut.numeral base upper n) = 0.
Proof.
  intros Hlo Hhi Hc.
  apply (value_from_count base upper c _ 0%N n Hc).
  now apply NumPutFacts.value_numeral.
Qed.

Lemma count_dec_signed c z :
  NumPut.digit_val false c = None -> c <> "-"%char ->
  count c (NumPut.dec_signed z) = 0.
Proof.
  intros Hc Hm. unfold NumPut.dec_signed, NumPut.dec.
  destruct (z <? 0)%Z; rewrite ?count_app, count_numeral by (try lia; exact Hc);
    [|reflexivity].
  cbn [count]. destruct (Ascii.eqb_spec "-"%char c); [congruence | reflexivity].
Qed.

(** A numeral has at least one digit. *)
Lemma numeral_head base upper n :
  (2 <= base)%N -> (base <= 16)%N ->
  exists c rest, NumPut.numeral base upper n = String c rest
                 /\ NumPut.digit_val upper c <> None.
Proof.
  intros Hlo Hhi.
  pose proof (NumPutFacts.value_numeral base upper Hlo Hhi n) as Hv.
  unfold NumPut.value in Hv.
  destruct (NumPut.numeral base upper n) as [|c rest] eqn:E.
  - exfalso. unfold NumPut.numeral in E. cbn [NumPut.digits] in E.
    cbv zeta in E. destruct (n / base =? 0)%N; [discriminate|].
    rewrite NumPutFacts.digits_app in E.
    apply (f_equal String.length) in E.
    rewrite TxtFacts.length_app, Nat.add_comm in E. discriminate E.
  - exists c, rest. split; [reflexivity|].
    simpl in Hv. now destruct (NumPut.digit_val upper c).
Qed.

(** The signed decimal text of a number tells the number. *)
Lemma dec_signed_inj z1 z2 : NumPut.dec_signed z1 = NumPut.dec_signed z2 -> z1 = z2.
Proof.
  unfold NumPut.dec_signed, NumPut.dec. intros H.
  pose proof (NumPutFacts.value_numeral 10 false ltac:(lia) ltac:(lia) (Z.abs_N z1)) as V1.
  pose proof (NumPutFacts.value_numeral 10 false ltac:(lia) ltac:(lia) (Z.abs_N z2)) as V2.
  destruct (Z.ltb_spec z1 0), (Z.ltb_spec z2 0).
  - simpl in H. injection H as H. rewrite H, V2 in V1. injection V1 as V1. lia.
  - rewrite <- H in V2. discriminate V2.
  - rewrite H in V1. discriminate V1.
  - rewrite H, V2 in V1. injection V1 as V1. lia.
Qed.

End ScanFacts.

(** ** The rendering of instructions that need not be coherent *)

Module RenderMore.

Import RenderFacts.

(** A turn of the loop on a parameter that is not misread. *)
Lemma put_param_no_misread inst pos p os :
  is_jump_or_call (_type inst) && misread p = false ->
  put_param inst pos p os =
  (Ret tt, os ++ operands_text (_type inst) (Nat.eqb pos 0) [p]).
Proof.
  unfold put_param, misread, operands_text, operand_text.
  destruct (is_jump_or_call (_type inst)), (Nat.eqb pos 0),
    p as [[] []]; intros H; try discriminate H; run; cbn [negb];
    cbv beta iota;
    cbv [default_text Fmt.hex_signed Fmt.hex_unsigned];
    rewrite ?WordFacts.signed_mod, ?TxtFacts.app_nil_r;
    assoc; reflexivity.
Qed.

(** A turn of the loop on a misread parameter of a jump or call: the
    comma, when it is due, and then the exception. *)
Lemma put_param_misread inst pos p os :
  is_jump_or_call (_type inst) = true -> misread p = true ->
  put_param inst pos p os =
  (Throw bad_get, os ++ (if Nat.eqb pos 0 then "" else ",")).
Proof.
  unfold put_param, misread. intros ->.
  destruct (Nat.eqb pos 0), p as [[] []]; intros H; try discriminate H;
    run; cbn [negb]; cbv beta iota; rewrite ?TxtFacts.app_nil_r; reflexivity.
Qed.

Lemma for_params_no_misread inst : forall ps pos os,
  is_jump_or_call (_type inst) && existsb misread ps = false ->
  for_params inst pos ps os =
  (Ret tt, os ++ operands_text (_type inst) (Nat.eqb pos 0) ps).
Proof.
  induction ps as [|p ps IH]; intros pos os H.
  - simpl. now rewrite TxtFacts.app_nil_r.
  - assert (H1 : is_jump_or_call (_type inst) && misread p = false
                 /\ is_jump_or_call (_type inst) && existsb misread ps = false).
    { cbn [existsb] in H.
      destruct (is_jump_or_call (_type inst)), (misread p); simpl in *;
        split; congruence. }
    destruct H1 as [Hp Hps].
    cbn [for_params]. unfold bind.
    rewrite put_param_no_misread by exact Hp.
    rewrite IH by exact Hps.
    rewrite (operands_text_cons _ _ p ps), TxtFacts.app_assoc. reflexivity.
Qed.

(** The loop up to the first misread parameter of a jump or call. *)
Lemma for_params_throw inst p after :
  is_jump_or_call (_type inst) = true -> misread p = true ->
  forall before pos os,
    existsb misread before = false ->
    for_params inst pos (before ++ p :: after) os =
    (Throw bad_get,
     os ++ operands_text (_type inst) (Nat.eqb pos 0) before
        ++ (if Nat.eqb pos 0 && Nat.eqb (List.length before) 0 then "" else ",")).
Proof.
  intros Hj Hp. induction before as [|q before IH]; intros pos os Hb.
  - cbn [app for_params]. unfold bind.
    rewrite put_param_misread by assumption.
    cbn [operands_text List.length Nat.eqb append]. now rewrite andb_true_r.
  - cbn [existsb] in Hb. apply orb_false_iff in Hb as [Hq Hb].
    cbn [app for_params]. unfold bind.
    rewrite put_param_no_misread by (rewrite Hq; apply andb_false_r).
    rewrite IH by exact Hb.
    rewrite (operands_text_cons _ _ q before).
    cbn [List.length Nat.eqb andb]. rewrite andb_false_r.
    now rewrite <- !TxtFacts.app_assoc.
Qed.

Lemma operands_text_default category : forall ps first,
  is_jump_or_call category = false ->
  operands_text category first ps = default_operands first ps.
Proof.
  induction ps as [|p ps IH]; intros first H; [reflexivity|].
  cbn [operands_text default_operands]. rewrite IH by exact H.
  unfold operand_text. now rewrite H.
Qed.

(** Replacing parameters by others that the loop body treats alike. *)
Lemma for_params_ext inst inst' : forall ps ps' pos os,
  Forall2 (fun p p' => forall pos os,
             put_param inst pos p os = put_param inst' pos p' os) ps ps' ->
  for_params inst pos ps os = for_params inst' pos ps' os.
Proof.
  intros ps ps' pos os H. revert pos os.
  induction H as [|p p' ps ps' Hp _ IH]; intros pos os; [reflexivity|].
  cbn [for_params]. unfold bind. rewrite Hp.
  destruct (put_param inst' pos p' os) as [[[]|e] os']; [apply IH | reflexivity].
Qed.

Lemma operator_out_ext inst inst' os :
  _address inst = _address inst' -> _name inst = _name inst' ->
  _stackChange inst = _stackChange inst' ->
  Forall2 (fun p p' => forall pos os,
             put_param inst pos p os = put_param inst' pos p' os)
          (_params inst) (_params inst') ->
  operator_out inst os = operator_out inst' os.
Proof.
  intros Ha Hn Hs Hp. unfold operator_out, bind.
  rewrite Ha, Hn, Hs.
  destruct (put (Fmt.addr_name (_address inst') (_name inst')) os) as [[[]|e] os1];
    [|reflexivity].
  now rewrite (for_params_ext inst inst' _ _ 0 os1 Hp).
Qed.

End RenderMore.

(** ** Accessors *)


(** ** What the rendering reads *)

(** X2.  The rendering reads neither the opcode nor the code generation
    data: two instructions that differ only there are rendered alike, in
    outcome and in text. *)
Theorem rendering_ignores_opcode_and_hint
  (op op' addr : uint32) (delta : int16) (name : string) (category : InstType)
  (params : list Param.Parameter_) (hint hint' : string) (os : ostream) :
  operator_out (mkInstruction op addr delta name category params hint) os
  = operator_out (mkInstruction op' addr delta name category params hint') os.
Proof.
  apply RenderMore.operator_out_ext; try reflexivity.
  cbn [_params]. induction params as [|p ps IH]; constructor; [|exact IH].
  intros pos os'. reflexivity.
Qed.

(** X3.  Outside the five categories of jumps and calls the rendering
    never throws and never looks at the declared type of a parameter: each
    operand is the default form of the stored alternative, coherent or
    not. *)
Theorem other_categories_print_stored_values (inst : Instruction) (os : ostream) :
  is_jump_or_call (_type inst) = false ->
  operator_out inst os
  = (Ret tt,
     os ++ Fmt.addr_name (_address inst) (_name inst)
        ++ default_operands true (_params inst)
        ++ Fmt.stack_change (_stackChange inst) ++ Txt.nl).
Proof.
  intros H. unfold operator_out, bind. cbv [put].
  rewrite RenderMore.for_params_no_misread by (now rewrite H).
  rewrite RenderMore.operands_text_default by exact H.
  rewrite <- ?TxtFacts.app_assoc. reflexivity.
Qed.

Lemma other_categories_print_stored_values_witness :
  is_jump_or_call (_type Sample.load_incoherent) = false
  /\ operator_out Sample.load_incoherent ""
     = (Ret tt, "00000010: push 5 (1)" ++ Txt.nl).
Proof.
  split; [reflexivity|].
  rewrite (other_categories_print_stored_values Sample.load_incoherent ""
             eq_refl).
  reflexivity.
Defined.

(** X4.  Whenever no parameter of a jump or call is misread the rendering
    returns, also when the instruction is not coherent: a parameter
    declared [kString] is written in the default form of whatever it
    stores, a numeric one in hexadecimal. *)
Theorem rendering_without_misread (inst : Instruction) (os : ostream) :
  existsb misread (_params inst) = false ->
  operator_out inst os
  = (Ret tt,
     os ++ Fmt.addr_name (_address inst) (_name inst)
        ++ operands_text (_type inst) true (_params inst)
        ++ Fmt.stack_change (_stackChange inst) ++ Txt.nl).
Proof.
  intros H. unfold operator_out, bind. cbv [put].
  rewrite RenderMore.for_params_no_misread by (rewrite H; apply andb_false_r).
  rewrite <- ?TxtFacts.app_assoc. reflexivity.
Qed.

Lemma rendering_without_misread_witness :
  existsb misread [Sample2.label; Sample2.number_as_text; Sample2.m16_sbyte] = false
  /\ operator_out
       (Sample.inst 32 0 "call" kCall
          [Sample2.label; Sample2.number_as_text; Sample2.m16_sbyte]) ""
     = (Ret tt, "00000020: call loop, 4096, 0xFFFFFFF0 (0)" ++ Txt.nl).
Proof.
  split; [reflexivity|].
  rewrite (rendering_without_misread
             (Sample.inst 32 0 "call" kCall
                [Sample2.label; Sample2.number_as_text; Sample2.m16_sbyte]) ""
             eq_refl).
  reflexivity.
Defined.

(** X5.  When the rendering throws, the stream holds the address and the
    name, the operands before the first misread parameter, and the comma
    that was due before that parameter; nothing of the parameters after it
    and no stack change. *)
Theorem text_written_before_throw
  (inst : Instruction) (before after : list Param.Parameter_)
  (p : Param.Parameter_) (os : ostream) :
  is_jump_or_call (_type inst) = true ->
  _params inst = (before ++ p :: after)%list ->
  existsb misread before = false ->
  misread p = true ->
  operator_out inst os
  = (Throw bad_get,
     os ++ Fmt.addr_name (_address inst) (_name inst)
        ++ operands_text (_type inst) true before
        ++ match before with [] => "" | _ :: _ => "," end).
Proof.
  intros Hj Hps Hb Hp. unfold operator_out, bind. cbv [put].
  rewrite Hps, (RenderMore.for_params_throw inst p after Hj Hp before 0 _ Hb).
  cbn [Nat.eqb andb]. f_equal.
  rewrite <- ?TxtFacts.app_assoc. now destruct before.
Qed.

Lemma text_written_before_throw_witness :
  (is_jump_or_call (_type Sample2.call_incoherent) = true
   /\ _params Sample2.call_incoherent
      = ([Sample2.label; Sample2.number_as_text]
           ++ Sample.byte_as_signed :: [Sample2.m16_signed])%list
   /\ existsb misread [Sample2.label; Sample2.number_as_text] = false
   /\ misread Sample.byte_as_signed = true)
  /\ operator_out Sample2.call_incoherent ""
     = (Throw bad_get, "00000020: call loop, 4096,").
Proof.
  split; [repeat split|].
  rewrite (text_written_before_throw Sample2.call_incoherent
             [Sample2.label; Sample2.number_as_text] [Sample2.m16_signed]
             Sample.byte_as_signed "" eq_refl eq_refl eq_refl eq_refl).
  reflexivity.
Defined.


(** ** Characters of a rendering *)

Module LineFacts.

Import Scan ScanFacts.

Lemma count_replicate c x n : x <> c -> count c (Txt.replicate n x) = 0.
Proof.
  intros H. induction n as [|n IH]; simpl; [reflexivity|].
  destruct (Ascii.eqb_spec x c); [contradiction | exact IH].
Qed.

Lemma count_newline_addr_name a name :
  count newline (Fmt.addr_name a name) = count newline name.
Proof.
  unfold Fmt.addr_name, NumPut.setw_fill, NumPut.hex.
  rewrite !count_app, count_replicate by discriminate.
  rewrite count_numeral by (lia || reflexivity). reflexivity.
Qed.

Lemma count_newline_stack_change d : count newline (Fmt.stack_change d) = 0.
Proof.
  unfold Fmt.stack_change.
  rewrite !count_app, count_dec_signed by (reflexivity || discriminate).
  reflexivity.
Qed.

Lemma count_newline_default x :
  free_of newline x = true -> count newline (default_text x) = 0.
Proof.
  destruct x as [v | v | s]; cbn [free_of default_text]; intros H.
  - apply count_dec_signed; [reflexivity | discriminate].
  - apply count_numeral; lia || reflexivity.
  - now apply Nat.eqb_eq.
Qed.

Lemma count_newline_hex n : count newline ("0x" ++ NumPut.hex true n) = 0.
Proof.
  unfold NumPut.hex. rewrite count_app, count_numeral by (lia || reflexivity).
  reflexivity.
Qed.

Lemma count_newline_operand category p :
  free_of newline (Param._value p) = true ->
  count newline (operand_text category p) = 0.
Proof.
  intros H. unfold operand_text.
  destruct (is_jump_or_call category); [|now apply count_newline_default].
  destruct p as [t x]. cbn [Param._type Param._value] in *.
  destruct t, x; try (now apply count_newline_default);
    apply count_newline_hex.
Qed.

Lemma count_newline_operands category : forall ps first,
  forallb (fun p => free_of newline (Param._value p)) ps = true ->
  count newline (operands_text category first ps) = 0.
Proof.
  induction ps as [|p ps IH]; intros first H; [reflexivity|].
  cbn [forallb] in H. apply andb_true_iff in H as [Hp Hps].
  cbn [operands_text]. rewrite !count_app, count_newline_operand, IH by assumption.
  now destruct first.
Qed.

(** The first element on which a test holds. *)
Lemma existsb_first {A} (f : A -> bool) : forall l,
  existsb f l = true ->
  exists before x after,
    l = (before ++ x :: after)%list /\ existsb f before = false /\ f x = true.
Proof.
  induction l as [|y l IH]; intros H; [discriminate|].
  cbn [existsb] in H. destruct (f y) eqn:E.
  - exists [], y, l. now repeat split.
  - destruct (IH H) as (before & x & after & -> & Hb & Hx).
    exists (y :: before), x, after. cbn [existsb]. rewrite E. now repeat split.
Qed.

(** The rendering in its two outcomes. *)
Lemma operator_out_returns inst os :
  is_jump_or_call (_type inst) && existsb misread (_params inst) = false ->
  operator_out inst os
  = (Ret tt,
     os ++ Fmt.addr_name (_address inst) (_name inst)
        ++ operands_text (_type inst) true (_params inst)
        ++ Fmt.stack_change (_stackChange inst) ++ Txt.nl).
Proof.
  intros H. unfold operator_out, bind. cbv [put].
  rewrite RenderMore.for_params_no_misread by exact H.
  rewrite <- ?TxtFacts.app_assoc. reflexivity.
Qed.

Lemma operator_out_throws inst os :
  is_jump_or_call (_type inst) && existsb misread (_params inst) = true ->
  exists before p after,
    _params inst = (before ++ p :: after)%list
    /\ operator_out inst os
       = (Throw bad_get,
          os ++ Fmt.addr_name (_address inst) (_name inst)
             ++ operands_text (_type inst) true before
             ++ match before with [] => "" | _ :: _ => "," end).
Proof.
  intros H. apply andb_true_iff in H as [Hj He].
  destruct (existsb_first misread _ He) as (before & p & after & Hps & Hb & Hp).
  exists before, p, after. split; [exact Hps|].
  unfold operator_out, bind. cbv [put].
  rewrite Hps, (RenderMore.for_params_throw inst p after Hj Hp before 0 _ Hb).
  cbn [Nat.eqb andb]. f_equal.
  rewrite <- ?TxtFacts.app_assoc. now destruct before.
Qed.

End LineFacts.

(** ** The rendering as a line of a trace *)

(** X7.  When neither the name nor a text operand holds a line
    terminator, the rendering is one line: what it writes holds exactly
    one line terminator, as its last character, when it returns, and none
    at all when it throws. *)
Theorem rendering_is_one_line (inst : Instruction) (os : ostream) :
  Scan.count Scan.newline (_name inst) = 0 ->
  forallb (fun p => Scan.free_of Scan.newline (Param._value p)) (_params inst)
  = true ->
  exists line,
    Scan.count Scan.newline line = 0
    /\ operator_out inst os
       = if is_jump_or_call (_type inst) && existsb misread (_params inst)
         then (Throw bad_get, os ++ line)
         else (Ret tt, os ++ line ++ Txt.nl).
Proof.
  intros Hname Hps.
  destruct (is_jump_or_call (_type inst) && existsb misread (_params inst)) eqn:E.
  - destruct (LineFacts.operator_out_throws inst os E)
      as (before & p & after & Hsplit & Hout).
    eexists. split; [|exact Hout].
    rewrite Hsplit, forallb_app in Hps. apply andb_true_iff in Hps as [Hb _].
    rewrite !ScanFacts.count_app, LineFacts.count_newline_addr_name, Hname,
      LineFacts.count_newline_operands by exact Hb.
    now destruct before.
  - exists (Fmt.addr_name (_address inst) (_name inst)
            ++ operands_text (_type inst) true (_params inst)
            ++ Fmt.stack_change (_stackChange inst)).
    split.
    + rewrite !ScanFacts.count_app, LineFacts.count_newline_addr_name, Hname,
        LineFacts.count_newline_operands, LineFacts.count_newline_stack_change
        by exact Hps.
      reflexivity.
    + rewrite (LineFacts.operator_out_returns inst os E).
      now rewrite <- !TxtFacts.app_assoc.
Qed.

Lemma rendering_is_one_line_witness :
  (Scan.count Scan.newline (_name Sample2.call_incoherent) = 0
   /\ forallb (fun p => Scan.free_of Scan.newline (Param._value p))
        (_params Sample2.call_incoherent) = true)
  /\ exists line,
       Scan.count Scan.newline line = 0
       /\ operator_out Sample2.call_incoherent "" = (Throw bad_get, "" ++ line).
Proof.
  split; [split; reflexivity|].
  exact (rendering_is_one_line Sample2.call_incoherent "" eq_refl eq_refl).
Defined.

(** ** Reading the fields back *)

Module ReadFacts.

Import Scan ScanFacts.

(** What every rendering starts with, in both outcomes. *)
Lemma operator_out_starts inst os :
  exists rest,
    snd (operator_out inst os)
    = os ++ NumPut.setw_fill 8 "0"%char
              (NumPut.hex false (Z.to_N (word.unsigned (_address inst))))
         ++ rest.
Proof.
  destruct (RenderFacts.operator_out_shape inst) as [body H]. rewrite H.
  unfold Fmt.addr_name.
  destruct (is_jump_or_call (_type inst) && existsb misread (_params inst));
    cbn [snd]; eexists; rewrite <- ?TxtFacts.app_assoc; reflexivity.
Qed.

Lemma length_address_field (a : uint32) :
  String.length (NumPut.setw_fill 8 "0"%char
                   (NumPut.hex false (Z.to_N (word.unsigned a)))) = 8.
Proof.
  apply NumPutFacts.length_setw_fill.
  apply NumPutFacts.length_digits; [lia | lia |].
  apply WordFacts.unsigned32_lt.
Qed.

(** The end of a rendering that returned, cut at its last parenthesis. *)
Lemma operator_out_ends inst os t :
  operator_out inst os = (Ret tt, t) ->
  exists front,
    t = front
        ++ String "("%char
             (NumPut.dec_signed (word.signed (_stackChange inst))
              ++ String ")"%char Txt.nl).
Proof.
  destruct (RenderFacts.operator_out_shape inst) as [body H]. rewrite H.
  destruct (is_jump_or_call (_type inst) && existsb misread (_params inst));
    [discriminate|].
  intros E. injection E as <-.
  exists (os ++ Fmt.addr_name (_address inst) (_name inst) ++ body ++ " ").
  unfold Fmt.stack_change. rewrite <- !TxtFacts.app_assoc. reflexivity.
Qed.

Lemma count_paren_tail z :
  count "("%char (NumPut.dec_signed z ++ String ")"%char Txt.nl) = 0.
Proof.
  rewrite count_app, count_dec_signed by (reflexivity || discriminate).
  reflexivity.
Qed.

End ReadFacts.

(** X8.  The first eight characters of what a rendering writes read back,
    as hexadecimal in small letters, to the address of the instruction;
    this holds whether the rendering returns or throws, so that two
    instructions whose renderings agree have the same address. *)
Theorem address_read_back :
  (forall (inst : Instruction) (os : ostream),
     NumPut.value 16 false
       (substring (String.length os) 8 (snd (operator_out inst os)))
     = Some (Z.to_N (word.unsigned (_address inst))))
  /\ (forall (i1 i2 : Instruction) (os : ostream),
        snd (operator_out i1 os) = snd (operator_out i2 os) ->
        _address i1 = _address i2).
Proof.
  assert (R : forall (inst : Instruction) (os : ostream),
            NumPut.value 16 false
              (substring (String.length os) 8 (snd (operator_out inst os)))
            = Some (Z.to_N (word.unsigned (_address inst)))).
  { intros inst os.
    destruct (ReadFacts.operator_out_starts inst os) as [rest ->].
    rewrite ScanFacts.substring_skip.
    rewrite <- (ReadFacts.length_address_field (_address inst)) at 1.
    rewrite ScanFacts.substring_take.
    rewrite NumPutFacts.value_setw_fill by lia.
    apply NumPutFacts.value_numeral; lia. }
  split; [exact R|].
  intros i1 i2 os E.
  pose proof (R i1 os) as R1. rewrite E, R in R1. injection R1 as R1.
  change (Z.to_N (word.unsigned (_address i2))
          = Z.to_N (word.unsigned (_address i1))) in R1.
  apply word.unsigned_inj.
  pose proof (word.unsigned_range (_address i1)).
  pose proof (word.unsigned_range (_address i2)). lia.
Qed.

Lemma address_read_back_witness :
  snd (operator_out Sample.ret_plain ">") = snd (operator_out Sample2.ret_hinted ">")
  /\ _address Sample.ret_plain = _address Sample2.ret_hinted.
Proof.
  split; [reflexivity|].
  apply (proj2 address_read_back Sample.ret_plain Sample2.ret_hinted ">").
  reflexivity.
Defined.

(** X9.  A rendering that returned tells the stack change: two
    instructions whose renderings return and leave the same text in the
    stream have the same stack change. *)
Theorem stack_change_told_by_rendering
  (i1 i2 : Instruction) (os1 os2 t : ostream) :
  operator_out i1 os1 = (Ret tt, t) ->
  operator_out i2 os2 = (Ret tt, t) ->
  _stackChange i1 = _stackChange i2.
Proof.
  intros H1 H2.
  destruct (ReadFacts.operator_out_ends i1 os1 t H1) as [f1 E1].
  destruct (ReadFacts.operator_out_ends i2 os2 t H2) as [f2 E2].
  rewrite E1 in E2.
  apply ScanFacts.split_at_last in E2 as [_ E];
    try apply ReadFacts.count_paren_tail.
  apply ScanFacts.split_at_last in E as [E _]; try reflexivity.
  apply ScanFacts.dec_signed_inj in E.
  now apply word.signed_inj.
Qed.

Lemma stack_change_told_by_rendering_witness :
  (operator_out Sample.ret_plain "" = (Ret tt, "0000002a: ret (-2)" ++ Txt.nl)
   /\ operator_out Sample2.ret_hinted "" = (Ret tt, "0000002a: ret (-2)" ++ Txt.nl))
  /\ _stackChange Sample.ret_plain = _stackChange Sample2.ret_hinted.
Proof.
  split; [split; reflexivity|].
  apply (stack_change_told_by_rendering Sample.ret_plain Sample2.ret_hinted
           "" "" ("0000002a: ret (-2)" ++ Txt.nl)); reflexivity.
Defined.

(** ** The digits of an operand in hexadecimal *)

Module DigitFacts.

Import NumPut.
Local Open Scope N_scope.

Section Base.

Variables (base : N) (upper : bool).
Hypothesis base_lo : 2 <= base.
Hypothesis base_hi : base <= 16.



End Base.


End DigitFacts.


(** ** Declared types and the text of an operand *)

Module KindFacts.

Import RenderFacts.

Lemma put_param_same_kind inst inst' p p' pos os :
  _type inst = _type inst' -> same_kind p p' ->
  put_param inst pos p os = put_param inst' pos p' os.
Proof.
  intros Ht [Hv Hk]. unfold put_param. rewrite Ht.
  destruct p as [t x], p' as [t' x'].
  cbn [Param._type Param._value] in *. subst x'.
  destruct t, t'; try discriminate Hk; reflexivity.
Qed.

Lemma put_param_same_bits inst inst' w p p' pos os :
  _type inst = _type inst' -> is_jump_or_call (_type inst) = true ->
  same_bits w p p' ->
  put_param inst pos p os = put_param inst' pos p' os.
Proof.
  intros Ht Hj (Hv & Hs & Hv' & Hu). unfold put_param. rewrite <- Ht, Hj.
  destruct p as [t x], p' as [t' x'].
  cbn [Param._type Param._value] in *. subst x x'.
  destruct t; try discriminate Hs; destruct t'; try discriminate Hu;
    reflexivity.
Qed.

Lemma Forall2_same {A} (R : A -> A -> Prop) (l : list A) :
  (forall x, R x x) -> Forall2 R l l.
Proof. intros H. induction l; constructor; auto. Qed.

(** The default form of the operands around one of them. *)
Lemma default_operands_around p : forall before first after,
  default_operands first (before ++ p :: after)
  = default_operands first before
    ++ (if first && Nat.eqb (List.length before) 0 then "" else ",")
    ++ " " ++ default_text (Param._value p) ++ default_operands false after.
Proof.
  induction before as [|q before IH]; intros first after.
  - cbn [app default_operands List.length Nat.eqb].
    rewrite andb_true_r. reflexivity.
  - cbn [app default_operands List.length Nat.eqb]. rewrite IH.
    rewrite andb_false_r. cbn [andb].
    now rewrite <- !TxtFacts.app_assoc.
Qed.

(** A negative number starts with its sign, an unsigned one with a
    digit. *)
Lemma default_text_differs (w : @word.rep 32 Naive.word32) :
  (word.signed w < 0)%Z ->
  forall r r', default_text (VInt32 w) ++ r <> default_text (VUInt32 w) ++ r'.
Proof.
  intros Hneg r r' E. cbn [default_text] in E.
  unfold NumPut.dec_signed, NumPut.dec in E.
  destruct (Z.ltb_spec (word.signed w) 0) as [_ | Hge]; [|lia].
  destruct (ScanFacts.numeral_head 10 false (Z.to_N (word.unsigned w)))
    as (c & rest & Ec & Hc); try lia.
  rewrite Ec in E. cbn [append] in E. injection E as E _.
  subst c. apply Hc. reflexivity.
Qed.

Lemma operator_out_default inst os :
  is_jump_or_call (_type inst) = false ->
  operator_out inst os
  = (Ret tt,
     os ++ Fmt.addr_name (_address inst) (_name inst)
        ++ default_operands true (_params inst)
        ++ Fmt.stack_change (_stackChange inst) ++ Txt.nl).
Proof.
  intros H. rewrite LineFacts.operator_out_returns by (now rewrite H).
  now rewrite RenderMore.operands_text_default by exact H.
Qed.

End KindFacts.

(** X11.  The declared width of a parameter is never shown: replacing
    the declared types by others of the same kind (signed for signed,
    unsigned for unsigned, text for text) over the same stored values
    changes neither the outcome nor the text of the rendering. *)
Theorem declared_width_is_not_shown
  (op addr : uint32) (delta : int16) (name : string) (category : InstType)
  (hint : string) (ps ps' : list Param.Parameter_) (os : ostream) :
  Forall2 same_kind ps ps' ->
  operator_out (mkInstruction op addr delta name category ps hint) os
  = operator_out (mkInstruction op addr delta name category ps' hint) os.
Proof.
  intros H. apply RenderMore.operator_out_ext; try reflexivity.
  cbn [_params]. induction H as [|p p' l l' Hp _ IH]; constructor; [|exact IH].
  intros pos os'. now apply KindFacts.put_param_same_kind.
Qed.

Lemma declared_width_is_not_shown_witness :
  Forall2 same_kind [Sample2.m16_sbyte] [Sample2.m16_signed]
  /\ operator_out (Sample.inst 42 0 "jump" kJump [Sample2.m16_sbyte]) ""
     = operator_out (Sample.inst 42 0 "jump" kJump [Sample2.m16_signed]) "".
Proof.
  assert (H : Forall2 same_kind [Sample2.m16_sbyte] [Sample2.m16_signed])
    by (constructor; [split; reflexivity | constructor]).
  split; [exact H|].
  exact (declared_width_is_not_shown (Sample.u32 0) (Sample.u32 42)
           (Sample.i16 0) "jump" kJump "" _ _ "" H).
Defined.

(** X12.  In a jump or call the sign of a number is not shown: a signed
    parameter and an unsigned parameter that store the same 32 bits are
    rendered alike, wherever they stand among the parameters. *)
Theorem signedness_not_shown_in_jumps
  (op addr : uint32) (delta : int16) (name : string) (category : InstType)
  (hint : string) (before after : list Param.Parameter_)
  (w : @word.rep 32 Naive.word32) (p p' : Param.Parameter_) (os : ostream) :
  is_jump_or_call category = true ->
  same_bits w p p' ->
  operator_out
    (mkInstruction op addr delta name category (before ++ p :: after) hint) os
  = operator_out
      (mkInstruction op addr delta name category (before ++ p' :: after) hint) os.
Proof.
  intros Hj Hb. apply RenderMore.operator_out_ext; try reflexivity.
  cbn [_params]. apply Forall2_app; [|constructor].
  - apply KindFacts.Forall2_same. reflexivity.
  - intros pos os'.
    now apply (KindFacts.put_param_same_bits _ _ w).
  - apply KindFacts.Forall2_same. reflexivity.
Qed.

Lemma signedness_not_shown_in_jumps_witness :
  (is_jump_or_call kJump = true
   /\ same_bits (Sample.i32 (-16)) Sample2.m16_signed Sample2.m16_unsigned)
  /\ operator_out
       (Sample.inst 42 0 "jump" kJump ([Sample2.label] ++ Sample2.m16_signed :: [])) ""
     = operator_out
         (Sample.inst 42 0 "jump" kJump ([Sample2.label] ++ Sample2.m16_unsigned :: [])) "".
Proof.
  assert (H : same_bits (Sample.i32 (-16)) Sample2.m16_signed Sample2.m16_unsigned)
    by (repeat split).
  split; [split; [reflexivity | exact H]|].
  exact (signedness_not_shown_in_jumps (Sample.u32 0) (Sample.u32 42)
           (Sample.i16 0) "jump" kJump "" [Sample2.label] []
           (Sample.i32 (-16)) _ _ "" eq_refl H).
Defined.

(** X13.  In every other category the sign is shown: when the 32 bits
    denote a negative signed number, the parameter that stores them signed
    and the one that stores them unsigned are rendered differently. *)
Theorem signedness_shown_elsewhere
  (op addr : uint32) (delta : int16) (name : string) (category : InstType)
  (hint : string) (before after : list Param.Parameter_)
  (w : @word.rep 32 Naive.word32) (p p' : Param.Parameter_) (os : ostream) :
  is_jump_or_call category = false ->
  same_bits w p p' ->
  (word.signed w < 0)%Z ->
  operator_out
    (mkInstruction op addr delta name category (before ++ p :: after) hint) os
  <> operator_out
       (mkInstruction op addr delta name category (before ++ p' :: after) hint) os.
Proof.
  intros Hj (Hv & _ & Hv' & _) Hneg E.
  rewrite !KindFacts.operator_out_default in E by exact Hj.
  apply (f_equal snd) in E. cbn [snd _address _name _params _stackChange] in E.
  rewrite !KindFacts.default_operands_around, Hv, Hv' in E.
  rewrite <- !TxtFacts.app_assoc in E.
  do 5 apply ScanFacts.app_inv_head in E.
  exact (KindFacts.default_text_differs w Hneg _ _ E).
Qed.

Lemma signedness_shown_elsewhere_witness :
  (is_jump_or_call kLoad = false
   /\ same_bits (Sample.i32 (-16)) Sample2.m16_signed Sample2.m16_unsigned
   /\ (word.signed (Sample.i32 (-16)) < 0)%Z)
  /\ operator_out
       (Sample.inst 42 0 "push" kLoad ([] ++ Sample2.m16_signed :: [])) ""
     <> operator_out
          (Sample.inst 42 0 "push" kLoad ([] ++ Sample2.m16_unsigned :: [])) "".
Proof.
  assert (H : same_bits (Sample.i32 (-16)) Sample2.m16_signed Sample2.m16_unsigned)
    by (repeat split).
  split; [split; [reflexivity | split; [exact H | reflexivity]]|].
  exact (signedness_shown_elsewhere (Sample.u32 0) (Sample.u32 42)
           (Sample.i16 0) "push" kLoad "" [] []
           (Sample.i32 (-16)) _ _ "" eq_refl H eq_refl).
Defined.
